(** * Bing chat clone notebook: a shallow embedding of its Python cells

    The notebook [08-BingChatClone.ipynb] holds a few pieces of code of its
    own: the display helper [printmd], the cell that sets the environment,
    the search tool [MyBingSearch], the tool list handed to
    [initialize_agent], two retry loops around [agent_executor.run] and the
    cells that show their result.  The library calls they make are modelled
    as far as the notebook's code meets them: [Markdown] with its loading of
    URLs and files, [BingSearchAPIWrapper] with its validation and its
    conversion of hits.  What lies behind them (the file system, the
    network, the Bing service, the agent executor) is an oracle carried by
    the world. *)

From Stdlib Require Import String Ascii List ZArith Lia Bool DecimalString.
Import ListNotations.
Local Open Scope string_scope.

(** ** Python strings

    A Python [str] is held as its UTF-8 bytes.  Byte [0x24] only ever
    encodes the dollar sign, so replacing it byte-wise is replacing it
    character-wise. *)
Module PyStr.

(** [new] written after every character of [s]. *)
Fixpoint interleave (new s : string) : string :=
  match s with
  | EmptyString => EmptyString
  | String c s' => String c (new ++ interleave new s')
  end.

(** Left-to-right scan for non-overlapping occurrences of a non-empty
    [old]; [skip] counts the characters of a match still to be dropped. *)
Fixpoint replace_from (old new : string) (skip : nat) (s : string) : string :=
  match s with
  | EmptyString => EmptyString
  | String c s' =>
      match skip with
      | S skip' => replace_from old new skip' s'
      | O =>
          if prefix old (String c s')
          then new ++ replace_from old new (String.length old - 1) s'
          else String c (replace_from old new 0 s')
      end
  end.

(** [s.replace(old, new)]: every occurrence; for the empty pattern, which
    the notebook never uses, as Python does on ASCII text. *)
Definition replace (s old new : string) : string :=
  match old with
  | EmptyString => new ++ interleave new s
  | String _ _ => replace_from old new 0 s
  end.

(** [c in s] for a single character. *)
Fixpoint contains (c : ascii) (s : string) : bool :=
  match s with
  | EmptyString => false
  | String a s' => if ascii_dec c a then true else contains c s'
  end.

(** The ASCII characters [str.strip()] removes. *)
Definition is_space (c : ascii) : bool :=
  match nat_of_ascii c with
  | 9 | 10 | 11 | 12 | 13 | 32 => true
  | _ => false
  end.

(** Nothing but blanks, or nothing at all: [s.strip()] is empty. *)
Fixpoint blank (s : string) : bool :=
  match s with
  | EmptyString => true
  | String c s' => is_space c && blank s'
  end.

(** [str(n)] for a natural number. *)
Definition of_nat (n : nat) : string := NilEmpty.string_of_uint (Nat.to_uint n).

End PyStr.

(** ** Python exceptions and effects *)

(** An exception object: its class, whether that class derives from
    [Exception] (as opposed to [BaseException] only, like
    [KeyboardInterrupt]), and its message. *)
Record exn : Type := mk_exn {
  exn_class : string;
  exn_is_Exception : bool;
  exn_message : string
}.

Definition NotImplementedError (msg : string) : exn :=
  mk_exn "NotImplementedError" true msg.

(** [str(e)] of an exception built from one message. *)
Definition str_exn (e : exn) : string := exn_message e.

Inductive outcome (A : Type) : Type :=
| Return (a : A)
| Raise (e : exn).
Arguments Return {A} a.
Arguments Raise {A} e.

(** A computation over a world [W]: it ends by returning or by raising,
    and the world keeps whatever happened before the exception. *)
Definition M (W A : Type) : Type := W -> outcome A * W.

(** [raise e]: the world is left as it is. *)
Definition raise {W A} (e : exn) : M W A := fun w => (Raise e, w).

(** ** Sequencing of statements *)

Definition ret {W A} (a : A) : M W A := fun w => (Return a, w).

(** [m] and then [f] on its value; an exception of [m] ends both, and the
    world keeps what [m] did to it. *)
Definition bind {W A B} (m : M W A) (f : A -> M W B) : M W B :=
  fun w =>
    match m w with
    | (Return a, w') => f a w'
    | (Raise e, w') => (Raise e, w')
    end.

Notation "x <- m ;; k" := (bind m (fun x => k))
  (at level 61, m at next level, right associativity).
Notation "m ;;; k" := (bind m (fun _ => k))
  (at level 61, right associativity).

(** ** The display helper (cell 1) *)

Inductive display_data : Type :=
| Markdown (source : string)
| HTML (source : string).

(** The notebook as the display helper meets it: the output area, oldest
    output first, and what a display object may load its data from.
    [path_exists] is [os.path.exists] with its exceptions read as [False];
    [read_path] is [open(path, 'r', encoding='utf-8').read()]; [urlopen]
    is the download of a URL up to the text it leaves in the object, or
    the exception met on the way (the request, the decoding, the check
    that the data of a text object is a [str]). *)
Record Notebook : Type := mk_notebook {
  outputs : list display_data;
  path_exists : string -> bool;
  read_path : string -> outcome string;
  urlopen : string -> outcome string
}.

(** The notebook with one more output. *)
Definition show (d : display_data) (nb : Notebook) : Notebook :=
  mk_notebook (outputs nb ++ [d])%list (path_exists nb) (read_path nb) (urlopen nb).

(** [display(obj)] *)
Definition display (d : display_data) : M Notebook unit :=
  fun nb => (Return tt, show d nb).

(** [Markdown(data)], as [DisplayObject.__init__] builds it: a text that
    starts with [http] is taken for a URL and downloaded, a text that names
    an existing path is taken for a file and read, any other text is the
    data itself. *)
Definition new_Markdown (data : string) : M Notebook display_data :=
  fun nb =>
    if prefix "http" data then
      match urlopen nb data with
      | Return loaded => (Return (Markdown loaded), nb)
      | Raise e => (Raise e, nb)
      end
    else if path_exists nb data then
      match read_path nb data with
      | Return loaded => (Return (Markdown loaded), nb)
      | Raise e => (Raise e, nb)
      end
    else (Return (Markdown data), nb).

(** [def printmd(string): display(Markdown(string.replace("$","USD ")))] *)
Definition printmd (text : string) : M Notebook unit :=
  obj <- new_Markdown (PyStr.replace text "$" "USD ") ;;
  display obj.

(** A text that [Markdown] takes for the data itself: it does not start
    with [http] and names no existing path. *)
Definition is_literal (nb : Notebook) (data : string) : bool :=
  negb (prefix "http" data) && negb (path_exists nb data).

(** A notebook for examples: nothing shown yet, no path exists, no URL can
    be reached. *)
Definition fresh_notebook : Notebook :=
  mk_notebook []
    (fun _ => false)
    (fun path => Raise (mk_exn "FileNotFoundError" true path))
    (fun url => Raise (mk_exn "URLError" true url)).

(** What one character of the answer becomes on its way to the display. *)
Definition shown_char (c : ascii) : string :=
  if ascii_dec "$"%char c then "USD " else String c EmptyString.

Fixpoint shown (s : string) : string :=
  match s with
  | EmptyString => EmptyString
  | String c s' => shown_char c ++ shown s'
  end.

(** A numbered reference as the answers write it: [[1]], [[2]], ... *)
Definition citation_marker (n : nat) : string := "[" ++ PyStr.of_nat n ++ "]".

(** ** The environment (cell 2)

    [os.environ] is a mapping from names to values; it is held as the list
    of its items, in insertion order. *)
Definition Environ : Type := list (string * string).

Fixpoint environ_get (key : string) (env : Environ) : option string :=
  match env with
  | [] => None
  | (k, v) :: rest => if String.eqb key k then Some v else environ_get key rest
  end.

(** Assignment to a name: in place when the name is there, at the end
    when it is new. *)
Fixpoint environ_set (key value : string) (env : Environ) : Environ :=
  match env with
  | [] => [(key, value)]
  | (k, v) :: rest =>
      if String.eqb key k then (key, value) :: rest
      else (k, v) :: environ_set key value rest
  end.

(** [KeyError(key)]; its text is the [repr] of the key. *)
Definition KeyError (key : string) : exn :=
  mk_exn "KeyError" true ("'" ++ key ++ "'").

(** [os.environ[key]] *)
Definition getitem (key : string) : M Environ string :=
  fun env =>
    match environ_get key env with
    | Some v => (Return v, env)
    | None => (Raise (KeyError key), env)
    end.

(** [os.environ[key] = value] *)
Definition setitem (key value : string) : M Environ unit :=
  fun env => (Return tt, environ_set key value env).

(** The six assignments of the cell, in their order. *)
Definition environ_cell : M Environ unit :=
  base <- getitem "OPENAI_API_BASE" ;;
  setitem "OPENAI_API_BASE" base ;;;
  key <- getitem "OPENAI_API_KEY" ;;
  setitem "OPENAI_API_KEY" key ;;;
  setitem "OPENAI_API_VERSION" "2023-07-01-preview" ;;;
  setitem "OPENAI_API_TYPE" "azure" ;;;
  setitem "BING_SEARCH_URL" "https://api.bing.microsoft.com/v7.0/search" ;;;
  bing <- getitem "BING_SUBSCRIPTION_KEY" ;;
  setitem "BING_SUBSCRIPTION_KEY" bing.

(** What the environment holds under [key] once the cell has run through,
    given what it held before. *)
Definition after_environ_cell (env : Environ) (key : string) : option string :=
  if String.eqb key "OPENAI_API_VERSION" then Some "2023-07-01-preview"
  else if String.eqb key "OPENAI_API_TYPE" then Some "azure"
  else if String.eqb key "BING_SEARCH_URL"
       then Some "https://api.bing.microsoft.com/v7.0/search"
  else environ_get key env.

(** The environment with the three settings of the cell written to it. *)
Definition with_settings (env : Environ) : Environ :=
  environ_set "BING_SEARCH_URL" "https://api.bing.microsoft.com/v7.0/search"
    (environ_set "OPENAI_API_TYPE" "azure"
       (environ_set "OPENAI_API_VERSION" "2023-07-01-preview" env)).

(** The names the cell reads before it writes them. *)
Definition credentials : list string :=
  ["OPENAI_API_BASE"; "OPENAI_API_KEY"; "BING_SUBSCRIPTION_KEY"].

(** ** The search backend (library code, seen through its interface)

    [BingSearchAPIWrapper(k=...)] reads the subscription key and the
    search URL from the environment and fails when one of them is not set
    or is empty.  [results(query, num_results)] sends one request to the
    Bing service, turns every hit into a dictionary with the keys
    [snippet], [title] and [link], and hands back one placeholder entry
    when there is no hit.  The world holds the environment, every request
    sent, and the oracle [service]: what the service answers to a request,
    given the requests before it, as the list of hits found under
    [webPages.value], or the exception raised on the way to it. *)

(** A Python [dict] from strings to strings, in insertion order. *)
Definition dict : Type := list (string * string).

Definition has_key (key : string) (d : dict) : bool :=
  existsb (fun kv => String.eqb key (fst kv)) d.

(** [d.get(key)] *)
Definition dict_get (key : string) (d : dict) : option string :=
  option_map snd (find (fun kv => String.eqb key (fst kv)) d).

(** [d[key]] *)
Definition dict_getitem (key : string) (d : dict) : outcome string :=
  match dict_get key d with
  | Some v => Return v
  | None => Raise (KeyError key)
  end.

(** An entry that carries the three fields of a search result. *)
Definition is_search_result (d : dict) : bool :=
  has_key "snippet" d && has_key "title" d && has_key "link" d.

Record BingRequest : Type := mk_request {
  req_url : string;     (* the endpoint asked *)
  req_key : string;     (* the subscription key sent in the header *)
  req_query : string;   (* the text searched, [site:] filter included *)
  req_count : Z         (* the number of results asked for *)
}.

Record Bing : Type := mk_bing {
  environ : Environ;
  requests : list BingRequest;
  service : list BingRequest -> BingRequest -> outcome (list dict)
}.

(** The validation error of the wrapper; of its text only the field it
    names is kept. *)
Definition ValidationError (field : string) : exn :=
  mk_exn "ValidationError" true ("Did not find " ++ field).

(** The value of an environment variable that is set and not empty. *)
Definition from_env (name : string) (env : Environ) : option string :=
  match environ_get name env with
  | Some EmptyString => None
  | Some value => Some value
  | None => None
  end.

Module BingSearchAPIWrapper.

Record t : Type := mk {
  bing_subscription_key : string;
  bing_search_url : string;
  k : Z
}.

(** [BingSearchAPIWrapper(k=k)] *)
Definition new (k : Z) : M Bing t :=
  fun w =>
    match from_env "BING_SUBSCRIPTION_KEY" (environ w) with
    | None => (Raise (ValidationError "bing_subscription_key"), w)
    | Some key =>
        match from_env "BING_SEARCH_URL" (environ w) with
        | None => (Raise (ValidationError "bing_search_url"), w)
        | Some url => (Return (mk key url k), w)
        end
    end.

(** The request itself: it is recorded, and the service answers it. *)
Definition _bing_search_results (self : t) (search_term : string) (count : Z)
  : M Bing (list dict) :=
  fun w =>
    let r := mk_request (bing_search_url self) (bing_subscription_key self)
               search_term count in
    (service w (requests w) r,
     mk_bing (environ w) (requests w ++ [r])%list (service w)).

(** The loop over the hits: each becomes an entry; a hit without one of
    the three keys read ends the loop with its [KeyError]. *)
Fixpoint entries_of (hits : list dict) : outcome (list dict) :=
  match hits with
  | [] => Return []
  | result :: rest =>
      match dict_getitem "snippet" result with
      | Raise e => Raise e
      | Return snippet =>
          match dict_getitem "name" result with
          | Raise e => Raise e
          | Return name =>
              match dict_getitem "url" result with
              | Raise e => Raise e
              | Return url =>
                  match entries_of rest with
                  | Raise e => Raise e
                  | Return entries =>
                      Return ([("snippet", snippet); ("title", name);
                               ("link", url)] :: entries)
                  end
              end
          end
      end
  end.

(** The one entry handed back when there is no hit. *)
Definition no_result : dict :=
  [("Result", "No good Bing Search Result was found")].

(** [results(query, num_results)] *)
Definition results (self : t) (query : string) (num_results : Z)
  : M Bing (list dict) :=
  hits <- _bing_search_results self query num_results ;;
  match hits with
  | [] => ret [no_result]
  | _ :: _ => fun w => (entries_of hits, w)
  end.

End BingSearchAPIWrapper.

(** ** The search tool (cell 4) *)
Module MyBingSearch.

(** The one field of the tool, [k: int = 2]. *)
Record t : Type := mk { k : Z }.

Definition name : string := "@bing".

Definition description : string :=
  "useful when the questions includes the term: @bing."
  ++ String (ascii_of_nat 10) EmptyString.

(** [MyBingSearch()], with the field left at its default. *)
Definition default : t := mk 2.

(** [def _run(self, query)]: build a wrapper with the tool's [k], ask it
    for [k] results, return what it returns. *)
Definition _run (self : t) (query : string) : M Bing (list dict) :=
  bing <- BingSearchAPIWrapper.new (k self) ;;
  BingSearchAPIWrapper.results bing query (k self).

(** [async def _arun(self, query)], awaited. *)
Definition _arun (self : t) (query : string) : M Bing (list dict) :=
  raise (NotImplementedError "This Tool does not support async").

End MyBingSearch.

(** [tools = [MyBingSearch(k=5)]] (cell 5). *)
Definition tools : list MyBingSearch.t := [MyBingSearch.mk 5].

(** ** The retry loops (cells 7 and 11)

    [agent_executor.run] is library code: any computation that returns
    the answer text or raises.  The loop is the notebook's own:
<<
    for i in range(n):
        try:
            response = agent_executor.run(QUESTION)
            break
        except Exception as e:
            response = str(e)
            continue
>> *)

(** How control leaves the [for] statement. *)
Inductive loop_exit : Type :=
| Break                   (* a run returned: the session is done *)
| Exhausted               (* [range(n)] ran out: the session has failed *)
| Propagated (e : exn).   (* an exception [except Exception] does not catch *)

Section RetryLoop.

Context {W : Type}.
Variable run : string -> M W string.
Variable QUESTION : string.

(** [response] is [None] while the variable is unbound. *)
Fixpoint retry_loop (n : nat) (response : option string) (w : W)
  : loop_exit * option string * W :=
  match n with
  | O => (Exhausted, response, w)
  | S n' =>
      match run QUESTION w with
      | (Return answer, w') => (Break, Some answer, w')
      | (Raise e, w') =>
          if exn_is_Exception e
          then retry_loop n' (Some (str_exn e)) w'
          else (Propagated e, response, w')
      end
  end.

(** Cell 7: [for i in range(2)]. *)
Definition retry_cell_7 : option string -> W -> loop_exit * option string * W :=
  retry_loop 2.

(** Cell 11: [for i in range(3)]. *)
Definition retry_cell_11 : option string -> W -> loop_exit * option string * W :=
  retry_loop 3.

(** The world after [j] runs in a row, and how the run made then ends. *)
Fixpoint world_after (j : nat) (w : W) : W :=
  match j with
  | O => w
  | S j' => world_after j' (snd (run QUESTION w))
  end.

Definition attempt (j : nat) (w : W) : outcome string :=
  fst (run QUESTION (world_after j w)).

(** Run [j] ends with an exception that [except Exception] catches. *)
Definition fails_with (e : exn) (j : nat) (w : W) : Prop :=
  attempt j w = Raise e /\ exn_is_Exception e = true.

Definition fails (j : nat) (w : W) : Prop := exists e, fails_with e j w.

(** A loop of budget [n] honours it: the first run that returns, if it is
    among the first [n], ends the session with its answer after exactly
    that many runs; and the session fails only once all [n] runs have been
    made and have failed. *)
Definition honours_budget (n : nat)
    (loop : option string -> W -> loop_exit * option string * W) : Prop :=
  (forall r0 w j answer,
      j < n ->
      (forall i, i < j -> fails i w) ->
      attempt j w = Return answer ->
      loop r0 w = (Break, Some answer, world_after (S j) w))
  /\
  (forall r0 w r w',
      loop r0 w = (Exhausted, r, w') ->
      (forall i, i < n -> fails i w) /\ w' = world_after n w).

(** A loop of budget [n] whose runs all fail leaves in [response] the text
    of the exception of the last run, and nothing else. *)
Definition surfaces_last_error (n : nat)
    (loop : option string -> W -> loop_exit * option string * W) : Prop :=
  forall r0 w e,
    (forall i, i < n -> fails i w) ->
    attempt (n - 1) w = Raise e ->
    loop r0 w = (Exhausted, Some (str_exn e), world_after n w).

End RetryLoop.

(** A stand-in executor for examples: its successive runs end as the
    script lists them, and it raises once the script is used up. *)
Definition scripted_run (_ : string) : M (list (outcome string)) string :=
  fun script =>
    match script with
    | [] => (Raise (mk_exn "RuntimeError" true "script used up"), [])
    | o :: rest => (o, rest)
    end.

Definition OutputParserException (msg : string) : exn :=
  mk_exn "OutputParserException" true msg.

Definition KeyboardInterrupt : exn := mk_exn "KeyboardInterrupt" false EmptyString.

(** A Bing world for examples: both credentials set, nothing sent yet. *)
Definition bing_world
    (service : list BingRequest -> BingRequest -> outcome (list dict)) : Bing :=
  mk_bing [("BING_SUBSCRIPTION_KEY", "secret");
           ("BING_SEARCH_URL", "https://api.bing.microsoft.com/v7.0/search")]
    [] service.

(** A Bing service for examples: it finds one page, as long as at least
    one is asked for. *)
Definition one_hit : list BingRequest -> BingRequest -> outcome (list dict) :=
  fun _ r =>
    if (1 <=? req_count r)%Z
    then Return [[("name", "Super Bowl LVII"); ("url", "https://www.nfl.com/");
                  ("snippet", "Kansas City won")]]
    else Return [].

(** A Bing service for examples: it never finds a page. *)
Definition no_hits : list BingRequest -> BingRequest -> outcome (list dict) :=
  fun _ _ => Return [].

(** ** Properties a renderer or a session may be asked to have *)

(** The link a citation index stands for: the [n]-th link retrieved
    during the session, counting from one. *)
Definition resolve (links : list string) (n : nat) : option string :=
  match n with
  | O => None
  | S i => nth_error links i
  end.

(** A renderer that is given the links of the session never shows an answer
    holding a marker without a link exactly as it came. *)
Definition never_passes_fabricated
    (render : list string -> string -> M Notebook unit) : Prop :=
  forall links n before after nb,
    resolve links n = None ->
    let answer := before ++ citation_marker n ++ after in
    snd (render links answer nb) <> show (Markdown answer) nb.

(** A renderer keeps the dollar sign: an answer holding one is shown as a
    text that still holds one. *)
Definition keeps_dollar (render : string -> M Notebook unit) : Prop :=
  forall answer nb,
    PyStr.contains "$" answer = true ->
    exists t,
      In (Markdown t) (outputs (snd (render answer nb))) /\
      PyStr.contains "$" t = true.

(** The credentials the wrapper finds in a world. *)
Definition finds_credentials (w : Bing) (key url : string) : Prop :=
  from_env "BING_SUBSCRIPTION_KEY" (environ w) = Some key
  /\ from_env "BING_SEARCH_URL" (environ w) = Some url.

(** The request the tool sends for a query, with the credentials found. *)
Definition request_of (key url : string) (tool : MyBingSearch.t)
    (query : string) : BingRequest :=
  mk_request url key query (MyBingSearch.k tool).

(** The world with one more request sent. *)
Definition sent (r : BingRequest) (w : Bing) : Bing :=
  mk_bing (environ w) (requests w ++ [r])%list (service w).

(** A hit as the service lists it: it has a snippet, a name and a URL. *)
Definition well_formed_hit (hit : dict) : bool :=
  has_key "snippet" hit && has_key "name" hit && has_key "url" hit.

(** An entry says of a hit what the hit says of itself. *)
Definition entry_of_hit (entry hit : dict) : Prop :=
  dict_get "snippet" entry = dict_get "snippet" hit
  /\ dict_get "title" entry = dict_get "name" hit
  /\ dict_get "link" entry = dict_get "url" hit.

(** A request the input constraints forbid. *)
Definition forbidden_request (r : BingRequest) : Prop :=
  PyStr.blank (req_query r) = true \/ (req_count r <= 0)%Z.

(** ** The cells that ask and show (cells 11 and 12)

    The state the cells share: the world of the agent, the variable
    [response] ([None] while it is unbound) and the notebook.  Cells 7 and
    9 are the same pair with a budget of two, when cell 9 is run right
    after cell 7; in the order of the notebook the call of cell 8 stands
    between them. *)
Record Kernel (W : Type) : Type := mk_kernel {
  agent_world : W;
  var_response : option string;
  notebook : Notebook
}.
Arguments mk_kernel {W} _ _ _.
Arguments agent_world {W} _.
Arguments var_response {W} _.
Arguments notebook {W} _.

Definition NameError (name : string) : exn :=
  mk_exn "NameError" true ("name '" ++ name ++ "' is not defined").

Section Cells.

Context {W : Type}.
Variable run : string -> M W string.
Variable QUESTION : string.

(** A retry loop as a cell: an exception the loop lets through ends the
    cell, with the variables as the loop left them. *)
Definition retry_cell (n : nat) : M (Kernel W) unit :=
  fun s =>
    match retry_loop run QUESTION n (var_response s) (agent_world s) with
    | (exit, r, w') =>
        let s' := mk_kernel w' r (notebook s) in
        match exit with
        | Propagated e => (Raise e, s')
        | Break | Exhausted => (Return tt, s')
        end
    end.

(** [printmd(response)] as a cell. *)
Definition show_cell : M (Kernel W) unit :=
  fun s =>
    match var_response s with
    | None => (Raise (NameError "response"), s)
    | Some text =>
        let '(o, nb) := printmd text (notebook s) in
        (o, mk_kernel (agent_world s) (var_response s) nb)
    end.

(** A retry cell and the cell that shows its result, run one after the
    other. *)
Definition ask_and_show (n : nat) : M (Kernel W) unit :=
  retry_cell n ;;; show_cell.

End Cells.

(** How often a character occurs in a text. *)
Fixpoint count_char (c : ascii) (s : string) : nat :=
  match s with
  | EmptyString => 0
  | String a s' => (if ascii_dec c a then 1 else 0) + count_char c s'
  end.

(** * Facts about the display helper *)

Section Display.

Lemma contains_app c a b :
  PyStr.contains c (a ++ b) = PyStr.contains c a || PyStr.contains c b.
Proof.
  induction a as [|x a IH]; simpl.
  - reflexivity.
  - destruct (ascii_dec c x); [reflexivity | exact IH].
Qed.

Lemma shown_app a b : shown (a ++ b) = shown a ++ shown b.
Proof.
  induction a as [|x a IH]; simpl.
  - reflexivity.
  - rewrite IH. unfold shown_char.
    destruct (ascii_dec "$" x); simpl; reflexivity.
Qed.

(** On the one-character pattern the scan is a character-wise map. *)
Lemma replace_dollar s : PyStr.replace s "$" "USD " = shown s.
Proof.
  unfold PyStr.replace.
  induction s as [|x s IH].
  - reflexivity.
  - cbn [PyStr.replace_from shown prefix String.length Nat.sub].
    unfold shown_char. destruct (ascii_dec "$" x) as [E|E].
    + replace (prefix EmptyString s) with true by (destruct s; reflexivity).
      rewrite IH. reflexivity.
    + rewrite IH. reflexivity.
Qed.

Lemma shown_without_dollar s : PyStr.contains "$" s = false -> shown s = s.
Proof.
  induction s as [|x s IH]; cbn [PyStr.contains shown].
  - reflexivity.
  - unfold shown_char. destruct (ascii_dec "$" x) as [E|E]; intro H.
    + discriminate H.
    + cbn [append]. rewrite (IH H). reflexivity.
Qed.

Lemma shown_has_no_dollar s : PyStr.contains "$" (shown s) = false.
Proof.
  induction s as [|x s IH]; cbn [shown].
  - reflexivity.
  - rewrite contains_app, IH, orb_false_r.
    unfold shown_char. destruct (ascii_dec "$" x) as [E|E].
    + reflexivity.
    + cbn [PyStr.contains].
      destruct (ascii_dec "$" x); [contradiction | reflexivity].
Qed.

Lemma digits_without_dollar d :
  PyStr.contains "$" (NilEmpty.string_of_uint d) = false.
Proof.
  induction d; simpl; try reflexivity; exact IHd.
Qed.

Lemma marker_without_dollar n : PyStr.contains "$" (citation_marker n) = false.
Proof.
  unfold citation_marker, PyStr.of_nat.
  rewrite !contains_app, digits_without_dollar. reflexivity.
Qed.

(** [printmd] hands the replaced text to [Markdown] and shows what comes
    of it. *)
Lemma printmd_runs text nb :
  printmd text nb =
  match fst (new_Markdown (shown text) nb) with
  | Return obj => (Return tt, show obj nb)
  | Raise e => (Raise e, nb)
  end.
Proof.
  unfold printmd, bind. rewrite replace_dollar. unfold new_Markdown.
  destruct (prefix "http" (shown text)).
  - destruct (urlopen nb (shown text)); reflexivity.
  - destruct (path_exists nb (shown text)).
    + destruct (read_path nb (shown text)); reflexivity.
    + reflexivity.
Qed.

Lemma new_Markdown_literal data nb :
  is_literal nb data = true ->
  new_Markdown data nb = (Return (Markdown data), nb).
Proof.
  unfold is_literal, new_Markdown. intro H.
  apply andb_true_iff in H. destruct H as [H1 H2].
  apply negb_true_iff in H1. apply negb_true_iff in H2.
  rewrite H1, H2. reflexivity.
Qed.

Lemma printmd_shows text nb :
  is_literal nb (shown text) = true ->
  printmd text nb = (Return tt, show (Markdown (shown text)) nb).
Proof.
  intro H. rewrite printmd_runs, (new_Markdown_literal _ _ H). reflexivity.
Qed.

End Display.

(** * Facts about the search tool *)

Section SearchTool.

Variable self : MyBingSearch.t.

Lemma has_key_get key (d : dict) :
  has_key key d = true -> exists v, dict_get key d = Some v.
Proof.
  unfold has_key, dict_get.
  induction d as [|[k v] rest IH]; cbn [existsb find fst].
  - discriminate.
  - destruct (String.eqb key k).
    + intros _. exists v. reflexivity.
    + exact IH.
Qed.

(** Hits that are well formed all become entries, one for one. *)
Lemma entries_of_well_formed hits :
  forallb well_formed_hit hits = true ->
  exists entries,
    BingSearchAPIWrapper.entries_of hits = Return entries
    /\ forallb is_search_result entries = true
    /\ Forall2 entry_of_hit entries hits.
Proof.
  induction hits as [|hit rest IH]; cbn [forallb]; intro H.
  - exists []. repeat split. constructor.
  - apply andb_true_iff in H. destruct H as [Hhit Hrest].
    unfold well_formed_hit in Hhit.
    apply andb_true_iff in Hhit. destruct Hhit as [Hhit Hurl].
    apply andb_true_iff in Hhit. destruct Hhit as [Hsnippet Hname].
    destruct (has_key_get _ _ Hsnippet) as [snippet Es].
    destruct (has_key_get _ _ Hname) as [name En].
    destruct (has_key_get _ _ Hurl) as [url Eu].
    destruct (IH Hrest) as (entries & E & Hall & Hmatch).
    exists ([("snippet", snippet); ("title", name); ("link", url)] :: entries).
    split; [| split].
    + cbn [BingSearchAPIWrapper.entries_of]. unfold dict_getitem.
      rewrite Es, En, Eu, E. reflexivity.
    + cbn [forallb]. rewrite Hall. reflexivity.
    + constructor; [| exact Hmatch].
      unfold entry_of_hit. rewrite Es, En, Eu. repeat split.
Qed.

(** With the credentials found, [_run] sends its one request and turns
    the answer of the service into its own. *)
Lemma run_with_credentials query w key url :
  finds_credentials w key url ->
  MyBingSearch._run self query w =
  (match service w (requests w) (request_of key url self query) with
   | Return [] => Return [BingSearchAPIWrapper.no_result]
   | Return (hit :: rest) => BingSearchAPIWrapper.entries_of (hit :: rest)
   | Raise e => Raise e
   end,
   sent (request_of key url self query) w).
Proof.
  intros [Hkey Hurl].
  unfold MyBingSearch._run, bind, BingSearchAPIWrapper.new.
  rewrite Hkey, Hurl.
  unfold BingSearchAPIWrapper.results, bind,
    BingSearchAPIWrapper._bing_search_results.
  cbn [BingSearchAPIWrapper.bing_search_url
       BingSearchAPIWrapper.bing_subscription_key].
  fold (request_of key url self query).
  destruct (service w (requests w) (request_of key url self query))
    as [[|hit rest] | e]; reflexivity.
Qed.

(** Without them, it fails before anything is sent. *)
Lemma run_without_credentials query w :
  from_env "BING_SUBSCRIPTION_KEY" (environ w) = None
  \/ from_env "BING_SEARCH_URL" (environ w) = None ->
  exists field,
    MyBingSearch._run self query w = (Raise (ValidationError field), w).
Proof.
  intro H. unfold MyBingSearch._run, bind, BingSearchAPIWrapper.new.
  destruct (from_env "BING_SUBSCRIPTION_KEY" (environ w)) as [key|].
  - destruct H as [H | H]; [discriminate H |]. rewrite H.
    eexists. reflexivity.
  - eexists. reflexivity.
Qed.

End SearchTool.

(** * Facts about the retry loop *)

Section RetryFacts.

Context {W : Type}.
Variable run : string -> M W string.
Variable QUESTION : string.

Local Abbreviation loop := (retry_loop run QUESTION).
Local Abbreviation nth_run := (attempt run QUESTION).
Local Abbreviation after := (world_after run QUESTION).

Lemma attempt_succ j w : nth_run (S j) w = nth_run j (snd (run QUESTION w)).
Proof. reflexivity. Qed.

Lemma fails_succ j w :
  fails run QUESTION (S j) w -> fails run QUESTION j (snd (run QUESTION w)).
Proof. intros [e [H1 H2]]. exists e. split; assumption. Qed.

Lemma first_failure w :
  fails run QUESTION 0 w ->
  exists e, run QUESTION w = (Raise e, snd (run QUESTION w))
            /\ exn_is_Exception e = true.
Proof.
  intros [e [H1 H2]]. exists e. split; [| exact H2].
  unfold attempt in H1. cbn [world_after] in H1.
  destruct (run QUESTION w) as [o w1]. cbn in *. subst o. reflexivity.
Qed.

(** The first run that returns ends the loop, with its answer. *)
Lemma retry_loop_done : forall j n r0 w answer,
  j < n ->
  (forall i, i < j -> fails run QUESTION i w) ->
  nth_run j w = Return answer ->
  loop n r0 w = (Break, Some answer, after (S j) w).
Proof.
  induction j as [|j IH]; intros n r0 w answer Hlt Hfail Hret.
  - destruct n as [|n]; [lia |].
    unfold attempt in Hret. cbn [world_after] in Hret.
    cbn [retry_loop world_after].
    destruct (run QUESTION w) as [o w1]. cbn in Hret |- *. subst o.
    reflexivity.
  - destruct n as [|n]; [lia |].
    destruct (first_failure w (Hfail 0 ltac:(lia))) as [e [Hrun Hexc]].
    cbn [retry_loop]. rewrite Hrun, Hexc.
    rewrite (IH n (Some (str_exn e)) (snd (run QUESTION w)) answer).
    + reflexivity.
    + lia.
    + intros i Hi. apply fails_succ. apply Hfail. lia.
    + rewrite <- attempt_succ. exact Hret.
Qed.

(** The loop runs out only after every run has failed. *)
Lemma retry_loop_exhausted_inv : forall n r0 w r w',
  loop n r0 w = (Exhausted, r, w') ->
  (forall i, i < n -> fails run QUESTION i w) /\ w' = after n w.
Proof.
  induction n as [|n IH]; intros r0 w r w' H.
  - cbn in H. injection H as _ Hw. split; [intros i Hi; lia | now subst].
  - cbn [retry_loop] in H.
    destruct (run QUESTION w) as [o w1] eqn:Hrun.
    destruct o as [answer | e]; [discriminate H |].
    destruct (exn_is_Exception e) eqn:Hexc; [| discriminate H].
    destruct (IH _ _ _ _ H) as [Hall Hw].
    assert (Hw1 : w1 = snd (run QUESTION w)) by (rewrite Hrun; reflexivity).
    split.
    + intros [|i] Hi.
      * exists e. split; [| exact Hexc].
        unfold attempt. cbn [world_after]. rewrite Hrun. reflexivity.
      * destruct (Hall i ltac:(lia)) as [e' [H1 H2]].
        exists e'. split; [| exact H2].
        rewrite attempt_succ, <- Hw1. exact H1.
    + cbn [world_after]. rewrite <- Hw1. exact Hw.
Qed.

(** When every run fails, [response] ends as the text of the last error. *)
Lemma retry_loop_all_fail : forall n r0 w e,
  (forall i, i < S n -> fails run QUESTION i w) ->
  nth_run n w = Raise e ->
  loop (S n) r0 w = (Exhausted, Some (str_exn e), after (S n) w).
Proof.
  induction n as [|n IH]; intros r0 w e Hfail Hlast.
  - destruct (first_failure w (Hfail 0 ltac:(lia))) as [e0 [Hrun Hexc]].
    unfold attempt in Hlast. cbn [world_after] in Hlast.
    rewrite Hrun in Hlast. cbn in Hlast. injection Hlast as ->.
    cbn [retry_loop world_after]. rewrite Hrun, Hexc. reflexivity.
  - destruct (first_failure w (Hfail 0 ltac:(lia))) as [e0 [Hrun Hexc]].
    change (loop (S (S n)) r0 w) with
      (match run QUESTION w with
       | (Return answer, w') => (Break, Some answer, w')
       | (Raise e, w') =>
           if exn_is_Exception e
           then loop (S n) (Some (str_exn e)) w'
           else (Propagated e, r0, w')
       end).
    rewrite Hrun, Hexc.
    rewrite (IH (Some (str_exn e0)) (snd (run QUESTION w)) e).
    + reflexivity.
    + intros i Hi. apply fails_succ. apply Hfail. lia.
    + rewrite <- attempt_succ. exact Hlast.
Qed.

(** Whatever leaves the loop as an exception is not an [Exception]. *)
Lemma retry_loop_catches : forall n r0 w e,
  fst (fst (loop n r0 w)) = Propagated e -> exn_is_Exception e = false.
Proof.
  induction n as [|n IH]; intros r0 w e H.
  - discriminate H.
  - cbn [retry_loop] in H.
    destruct (run QUESTION w) as [[answer | e0] w1].
    + discriminate H.
    + destruct (exn_is_Exception e0) eqn:Hexc.
      * exact (IH _ _ _ H).
      * cbn in H. injection H as <-. exact Hexc.
Qed.

Lemma retry_loop_honours_budget n : honours_budget run QUESTION n (loop n).
Proof.
  split.
  - intros r0 w j answer. apply retry_loop_done.
  - intros r0 w r w'. apply retry_loop_exhausted_inv.
Qed.

Lemma retry_loop_surfaces_last_error n :
  surfaces_last_error run QUESTION (S n) (loop (S n)).
Proof.
  intros r0 w e Hfail Hlast.
  apply retry_loop_all_fail; [exact Hfail |].
  replace n with (S n - 1) by lia. exact Hlast.
Qed.

End RetryFacts.

(** * The claims *)

(** ** Rendering ([printmd]) *)

(** C1, as stated, fails: in a session that retrieved no link at all, the
    answer [Kansas City won [1].] is displayed exactly as it came, with
    its marker [[1]] untouched. *)
Lemma C1_fabricated_marker_shown_unchanged :
  ~ never_passes_fabricated (fun _ => printmd).
Proof.
  intro H.
  apply (H [] 1 "Kansas City won " "." fresh_notebook); reflexivity.
Qed.

(** C1, amended: [printmd] never looks at the links of the session;
    whenever the text it hands to [Markdown] is taken for the data itself,
    a citation marker, whatever its index, is displayed verbatim, and the
    text around it is displayed as it would be on its own. *)
Theorem C1_markers_shown_verbatim : forall n before after nb,
  is_literal nb (shown before ++ citation_marker n ++ shown after) = true ->
  printmd (before ++ citation_marker n ++ after) nb =
  (Return tt,
   show (Markdown (shown before ++ citation_marker n ++ shown after)) nb).
Proof.
  intros n before after nb H.
  assert (E : shown (before ++ citation_marker n ++ after) =
              shown before ++ citation_marker n ++ shown after).
  { rewrite !shown_app.
    rewrite (shown_without_dollar (citation_marker n) (marker_without_dollar n)).
    reflexivity. }
  rewrite <- E in H |- *. apply printmd_shows. exact H.
Qed.

(** A marker between a price and a full stop. *)
Lemma C1_markers_shown_verbatim_example :
  printmd ("A room is $80 " ++ citation_marker 7 ++ ".") fresh_notebook =
  (Return tt, show (Markdown "A room is USD 80 [7].") fresh_notebook).
Proof.
  exact (C1_markers_shown_verbatim 7 "A room is $80 " "." fresh_notebook eq_refl).
Defined.

(** C3, as stated, fails: the answer [$7000] is displayed as [USD 7000],
    a text without any dollar sign. *)
Lemma C3_dollar_is_lost : ~ keeps_dollar printmd.
Proof.
  intro H.
  destruct (H "$7000" fresh_notebook eq_refl) as [t [Hin Hdollar]].
  cbn in Hin. destruct Hin as [Heq | []].
  injection Heq as <-. discriminate Hdollar.
Qed.

(** C3, amended: whenever the text [printmd] hands to [Markdown] is taken
    for the data itself, the answer is displayed with every dollar sign
    replaced by [USD ] and every other character kept in place; the text
    displayed never holds a dollar sign, and an answer without one is
    displayed unchanged. *)
Theorem C3_dollar_becomes_USD : forall text nb,
  is_literal nb (shown text) = true ->
  printmd text nb = (Return tt, show (Markdown (shown text)) nb)
  /\ PyStr.contains "$" (shown text) = false
  /\ (PyStr.contains "$" text = false -> shown text = text).
Proof.
  intros text nb H. split; [apply printmd_shows; exact H |].
  split; [apply shown_has_no_dollar | apply shown_without_dollar].
Qed.

(** One of the questions of the notebook, and a text without the sign. *)
Lemma C3_dollar_becomes_USD_example :
  printmd "can I travel for 7 days with $7000" fresh_notebook =
  (Return tt,
   show (Markdown "can I travel for 7 days with USD 7000") fresh_notebook)
  /\ shown "no money involved" = "no money involved".
Proof.
  split.
  - exact (proj1 (C3_dollar_becomes_USD "can I travel for 7 days with $7000"
                    fresh_notebook eq_refl)).
  - exact (proj2 (proj2 (C3_dollar_becomes_USD "no money involved"
                           fresh_notebook eq_refl)) eq_refl).
Defined.

(** ** The search tool ([MyBingSearch]) *)

(** C7, as stated, fails: when the service finds no page, [_run] returns
    one entry that carries none of the three fields. *)
Lemma C7_no_hit_gives_placeholder_entry :
  exists entries,
    fst (MyBingSearch._run (MyBingSearch.mk 5) "xyzzy plugh"
           (bing_world no_hits)) = Return entries
    /\ forallb is_search_result entries = false.
Proof.
  exists [BingSearchAPIWrapper.no_result]. split; reflexivity.
Qed.

(** C7, amended: with the credentials found, [_run] asks the service for
    [k] results, five for the tool of the notebook.  When the service
    answers with hits, each with a snippet, a name and a URL, [_run]
    returns one entry for every hit, in the order of the hits, each
    carrying the snippet, the name as title and the URL as link: as many
    entries as the service sent back, neither cut nor filled.  When the
    service answers with no hit, [_run] returns the one entry that says
    so. *)
Theorem C7_run_returns_one_entry_per_hit : forall self query w key url hits,
  finds_credentials w key url ->
  service w (requests w) (request_of key url self query) = Return hits ->
  forallb well_formed_hit hits = true ->
  exists entries,
    fst (MyBingSearch._run self query w) = Return entries
    /\ (hits = [] -> entries = [BingSearchAPIWrapper.no_result])
    /\ (hits <> [] ->
        forallb is_search_result entries = true
        /\ Forall2 entry_of_hit entries hits)
    /\ req_count (request_of key url self query) = MyBingSearch.k self
    /\ (In self tools -> MyBingSearch.k self = 5%Z).
Proof.
  intros self query w key url hits Hcred Hanswer Hhits.
  rewrite (run_with_credentials self query w key url Hcred), Hanswer.
  cbn [fst].
  assert (Hk : In self tools -> MyBingSearch.k self = 5%Z).
  { intros [<- | []]. reflexivity. }
  destruct hits as [|hit rest].
  - exists [BingSearchAPIWrapper.no_result].
    repeat split; [congruence | congruence | exact Hk].
  - destruct (entries_of_well_formed (hit :: rest) Hhits)
      as (entries & E & Hall & Hmatch).
    exists entries. rewrite E.
    repeat split; [discriminate | exact Hall | exact Hmatch | exact Hk].
Qed.

(** The tool of the notebook against a service that finds one page. *)
Lemma C7_run_returns_one_entry_per_hit_example :
  fst (MyBingSearch._run (MyBingSearch.mk 5)
         "Who won the 2023 superbowl and who was the MVP?"
         (bing_world one_hit)) =
  Return [[("snippet", "Kansas City won"); ("title", "Super Bowl LVII");
           ("link", "https://www.nfl.com/")]].
Proof.
  destruct (C7_run_returns_one_entry_per_hit (MyBingSearch.mk 5)
              "Who won the 2023 superbowl and who was the MVP?"
              (bing_world one_hit) "secret"
              "https://api.bing.microsoft.com/v7.0/search"
              [[("name", "Super Bowl LVII"); ("url", "https://www.nfl.com/");
                ("snippet", "Kansas City won")]]
              (conj eq_refl eq_refl) eq_refl eq_refl)
    as (entries & E & _).
  reflexivity.
Defined.

(** C8, as stated, fails: the tool of the notebook, handed a query of
    three blanks, sends it on; and a tool built with [k = 0] asks the
    service for zero results. *)
Lemma C8_forbidden_requests_are_sent :
  Exists forbidden_request
    (requests (snd (MyBingSearch._run (MyBingSearch.mk 5) "   "
                      (bing_world one_hit))))
  /\ Exists forbidden_request
       (requests (snd (MyBingSearch._run (MyBingSearch.mk 0) "oil supply"
                         (bing_world one_hit)))).
Proof.
  split; apply Exists_cons_hd.
  - left. reflexivity.
  - right. cbn. lia.
Qed.

(** C8, amended: [_run] checks neither the query nor the limit.  With the
    credentials found, each call sends the service exactly one request,
    holding the query as it was given and the tool's [k] as the number of
    results; without them it fails in building the wrapper and sends
    nothing.  The limit is positive for the tools of the notebook because
    they were built so. *)
Theorem C8_run_forwards_unchecked : forall self query w,
  (forall key url,
      finds_credentials w key url ->
      requests (snd (MyBingSearch._run self query w)) =
        (requests w ++ [mk_request url key query (MyBingSearch.k self)])%list)
  /\ (from_env "BING_SUBSCRIPTION_KEY" (environ w) = None
      \/ from_env "BING_SEARCH_URL" (environ w) = None ->
      exists field,
        MyBingSearch._run self query w = (Raise (ValidationError field), w))
  /\ Forall (fun tool => (0 < MyBingSearch.k tool)%Z) tools.
Proof.
  intros self query w. split; [| split].
  - intros key url Hcred.
    rewrite (run_with_credentials self query w key url Hcred). reflexivity.
  - apply run_without_credentials.
  - repeat constructor.
Qed.

(** A blank query with the credentials set, and any query without them. *)
Lemma C8_run_forwards_unchecked_example :
  requests (snd (MyBingSearch._run (MyBingSearch.mk 5) "   "
                   (bing_world one_hit))) =
    [mk_request "https://api.bing.microsoft.com/v7.0/search" "secret" "   " 5]
  /\ exists field,
       MyBingSearch._run (MyBingSearch.mk 5) "oil supply"
         (mk_bing [("BING_SUBSCRIPTION_KEY", EmptyString)] [] one_hit) =
       (Raise (ValidationError field),
        mk_bing [("BING_SUBSCRIPTION_KEY", EmptyString)] [] one_hit).
Proof.
  split.
  - exact (proj1 (C8_run_forwards_unchecked (MyBingSearch.mk 5) "   "
                    (bing_world one_hit))
             "secret" "https://api.bing.microsoft.com/v7.0/search"
             (conj eq_refl eq_refl)).
  - exact (proj1 (proj2 (C8_run_forwards_unchecked (MyBingSearch.mk 5)
                           "oil supply"
                           (mk_bing [("BING_SUBSCRIPTION_KEY", EmptyString)]
                              [] one_hit)))
             (or_introl eq_refl)).
Defined.

(** C10: awaited, [_arun] raises [NotImplementedError] for every query,
    and no request is sent. *)
Theorem C10_arun_always_raises : forall self query w,
  MyBingSearch._arun self query w =
    (Raise (NotImplementedError "This Tool does not support async"), w)
  /\ exn_class (NotImplementedError "This Tool does not support async")
       = "NotImplementedError"
  /\ requests (snd (MyBingSearch._arun self query w)) = requests w.
Proof.
  intros self query w. repeat split.
Qed.

(** ** The retry loops *)

(** C2: both loops honour their budget, two runs in cell 7 and three in
    cell 11: the first run that returns, when it is within the budget,
    ends the session with its answer and no further run is made; the
    session fails only after all runs of the budget have failed. *)
Theorem C2_retry_within_budget :
  forall (W : Type) (run : string -> M W string) (QUESTION : string),
    honours_budget run QUESTION 2 (retry_cell_7 run QUESTION)
    /\ honours_budget run QUESTION 3 (retry_cell_11 run QUESTION).
Proof.
  intros W run QUESTION. split; apply retry_loop_honours_budget.
Qed.

(** Two answers that cannot be parsed, then a final answer: with a budget
    of three the session is done, with the third answer. *)
Lemma C2_retry_within_budget_example :
  let script :=
    [Raise (OutputParserException "Could not parse LLM output");
     Raise (OutputParserException "Could not parse LLM output");
     Return "Kansas City won [1]."] in
  retry_cell_11 scripted_run "Who won the 2023 superbowl?" None script =
  (Break, Some "Kansas City won [1].", []).
Proof.
  intro script.
  refine (proj1 (proj2 (C2_retry_within_budget _ scripted_run _))
            None script 2 _ _ _ _).
  - lia.
  - intros [|[|i]] Hi; [| | lia];
      exists (OutputParserException "Could not parse LLM output");
      split; reflexivity.
  - reflexivity.
Defined.

(** The same three runs against the budget of two of cell 7: the session
    fails before the final answer is ever produced. *)
Example retry_cell_7_fails_on_two_parse_errors :
  retry_cell_7 scripted_run "Who won the 2023 superbowl?" None
    [Raise (OutputParserException "Could not parse LLM output");
     Raise (OutputParserException "Could not parse LLM output");
     Return "Kansas City won [1]."] =
  (Exhausted, Some "Could not parse LLM output", [Return "Kansas City won [1]."]).
Proof. reflexivity. Qed.

(** C9: when every run of the budget fails, what the caller finds in
    [response] is the text of the last exception, in cell 7 and in cell 11
    alike; no answer is made up. *)
Theorem C9_failed_session_surfaces_last_error :
  forall (W : Type) (run : string -> M W string) (QUESTION : string),
    surfaces_last_error run QUESTION 2 (retry_cell_7 run QUESTION)
    /\ surfaces_last_error run QUESTION 3 (retry_cell_11 run QUESTION).
Proof.
  intros W run QUESTION. split; apply retry_loop_surfaces_last_error.
Qed.

(** Two parse errors in cell 7: the caller sees the text of the second. *)
Lemma C9_failed_session_surfaces_last_error_example :
  let script :=
    [Raise (OutputParserException "Could not parse LLM output: first");
     Raise (OutputParserException "Could not parse LLM output: second")] in
  retry_cell_7 scripted_run "Who won the 2023 superbowl?" None script =
  (Exhausted, Some "Could not parse LLM output: second", []).
Proof.
  intro script.
  refine (proj1 (C9_failed_session_surfaces_last_error _ scripted_run _)
            None script
            (OutputParserException "Could not parse LLM output: second") _ _).
  - intros [|[|i]] Hi; [| | lia]; eexists; split; reflexivity.
  - reflexivity.
Defined.

(** * Further facts *)

(** ** The environment cell *)

Section Environment.

Lemma environ_get_set_same key value env :
  environ_get key (environ_set key value env) = Some value.
Proof.
  induction env as [|[k v] rest IH]; cbn [environ_set environ_get].
  - rewrite String.eqb_refl. reflexivity.
  - destruct (String.eqb key k) eqn:E; cbn [environ_get].
    + rewrite String.eqb_refl. reflexivity.
    + rewrite E. exact IH.
Qed.

Lemma environ_get_set_other key key' value env :
  key' <> key ->
  environ_get key' (environ_set key value env) = environ_get key' env.
Proof.
  intro Hne.
  induction env as [|[k v] rest IH]; cbn [environ_set environ_get].
  - destruct (String.eqb_spec key' key); [contradiction | reflexivity].
  - destruct (String.eqb_spec key k) as [-> | Hk]; cbn [environ_get].
    + destruct (String.eqb_spec key' k); [contradiction | reflexivity].
    + rewrite IH. reflexivity.
Qed.

(** Writing to a name the value it holds changes nothing. *)
Lemma environ_set_get_id key value env :
  environ_get key env = Some value -> environ_set key value env = env.
Proof.
  induction env as [|[k v] rest IH]; cbn [environ_set environ_get].
  - discriminate.
  - destruct (String.eqb_spec key k) as [-> | Hk]; intro H.
    + injection H as ->. reflexivity.
    + rewrite (IH H). reflexivity.
Qed.

Lemma with_settings_get env key :
  environ_get key (with_settings env) = after_environ_cell env key.
Proof.
  unfold with_settings, after_environ_cell.
  destruct (String.eqb_spec key "OPENAI_API_VERSION") as [-> | H1].
  - rewrite !environ_get_set_other by discriminate.
    apply environ_get_set_same.
  - destruct (String.eqb_spec key "OPENAI_API_TYPE") as [-> | H2].
    + rewrite environ_get_set_other by discriminate.
      apply environ_get_set_same.
    + destruct (String.eqb_spec key "BING_SEARCH_URL") as [-> | H3].
      * apply environ_get_set_same.
      * rewrite !environ_get_set_other by assumption. reflexivity.
Qed.

(** The four ways the cell can go, by the first credential that is not
    there. *)
Lemma environ_cell_cases env :
  (environ_get "OPENAI_API_BASE" env = None
   /\ environ_cell env = (Raise (KeyError "OPENAI_API_BASE"), env))
  \/ ((exists b, environ_get "OPENAI_API_BASE" env = Some b)
      /\ environ_get "OPENAI_API_KEY" env = None
      /\ environ_cell env = (Raise (KeyError "OPENAI_API_KEY"), env))
  \/ ((exists b, environ_get "OPENAI_API_BASE" env = Some b)
      /\ (exists k, environ_get "OPENAI_API_KEY" env = Some k)
      /\ environ_get "BING_SUBSCRIPTION_KEY" env = None
      /\ environ_cell env =
           (Raise (KeyError "BING_SUBSCRIPTION_KEY"), with_settings env))
  \/ ((exists b, environ_get "OPENAI_API_BASE" env = Some b)
      /\ (exists k, environ_get "OPENAI_API_KEY" env = Some k)
      /\ (exists s, environ_get "BING_SUBSCRIPTION_KEY" env = Some s)
      /\ environ_cell env = (Return tt, with_settings env)).
Proof.
  unfold environ_cell, bind, getitem, setitem.
  destruct (environ_get "OPENAI_API_BASE" env) as [b|] eqn:Hb;
    [| left; split; reflexivity].
  right. rewrite (environ_set_get_id _ _ _ Hb).
  destruct (environ_get "OPENAI_API_KEY" env) as [k|] eqn:Hk;
    [| left; repeat split; eauto].
  right. rewrite (environ_set_get_id _ _ _ Hk).
  fold (with_settings env).
  rewrite with_settings_get. unfold after_environ_cell. cbn [String.eqb Ascii.eqb Bool.eqb].
  destruct (environ_get "BING_SUBSCRIPTION_KEY" env) as [s|] eqn:Hs.
  - right. repeat split; eauto.
    rewrite environ_set_get_id; [reflexivity |].
    rewrite with_settings_get. unfold after_environ_cell.
    cbn [String.eqb Ascii.eqb Bool.eqb]. exact Hs.
  - left. repeat split; eauto.
Qed.

End Environment.

(** X1: with the three credentials in the environment, the cell runs
    through; afterwards the three settings hold the values of the cell,
    whatever they held before, and every other name, the credentials
    included, holds what it held. *)
Theorem environ_cell_with_credentials : forall env base key bing,
  environ_get "OPENAI_API_BASE" env = Some base ->
  environ_get "OPENAI_API_KEY" env = Some key ->
  environ_get "BING_SUBSCRIPTION_KEY" env = Some bing ->
  exists env',
    environ_cell env = (Return tt, env')
    /\ forall name, environ_get name env' = after_environ_cell env name.
Proof.
  intros env base key bing Hb Hk Hs.
  exists (with_settings env). split; [| apply with_settings_get].
  destruct (environ_cell_cases env)
    as [[H _] | [(_ & H & _) | [(_ & _ & H & _) | (_ & _ & _ & H)]]];
    congruence.
Qed.

(** An environment that holds an older API version besides the
    credentials: the version is overwritten, the rest is kept. *)
Lemma environ_cell_with_credentials_example :
  let env := [("OPENAI_API_BASE", "https://example.openai.azure.com/");
              ("OPENAI_API_VERSION", "2023-05-15");
              ("OPENAI_API_KEY", "secret"); ("BING_SUBSCRIPTION_KEY", "bing")] in
  exists env',
    environ_cell env = (Return tt, env')
    /\ forall name, environ_get name env' = after_environ_cell env name.
Proof.
  intro env.
  exact (environ_cell_with_credentials env _ _ _ eq_refl eq_refl eq_refl).
Defined.

(** X2: the cell fails at the first credential that is missing, with a
    [KeyError] naming it.  Without the first or the second credential the
    environment is left as it was; without the Bing key only, the three
    settings have been written by the time the cell fails. *)
Theorem environ_cell_missing_credential : forall env,
  (environ_get "OPENAI_API_BASE" env = None ->
   environ_cell env = (Raise (KeyError "OPENAI_API_BASE"), env))
  /\ (environ_get "OPENAI_API_BASE" env <> None ->
      environ_get "OPENAI_API_KEY" env = None ->
      environ_cell env = (Raise (KeyError "OPENAI_API_KEY"), env))
  /\ (environ_get "OPENAI_API_BASE" env <> None ->
      environ_get "OPENAI_API_KEY" env <> None ->
      environ_get "BING_SUBSCRIPTION_KEY" env = None ->
      environ_cell env =
        (Raise (KeyError "BING_SUBSCRIPTION_KEY"), with_settings env)
      /\ forall name,
           environ_get name (with_settings env) = after_environ_cell env name).
Proof.
  intro env.
  destruct (environ_cell_cases env)
    as [[H0 H] | [([b Hb] & H0 & H)
       | [([b Hb] & [k Hk] & H0 & H) | ([b Hb] & [k Hk] & [s Hs] & H)]]];
    repeat split; intros; try congruence; apply with_settings_get.
Qed.

(** The Bing key is the one that is missing: the cell fails, and the
    settings are in the environment all the same. *)
Lemma environ_cell_missing_credential_example :
  let env := [("OPENAI_API_BASE", "https://example.openai.azure.com/");
              ("OPENAI_API_KEY", "secret")] in
  environ_cell env =
    (Raise (KeyError "BING_SUBSCRIPTION_KEY"),
     env ++ [("OPENAI_API_VERSION", "2023-07-01-preview");
             ("OPENAI_API_TYPE", "azure");
             ("BING_SEARCH_URL", "https://api.bing.microsoft.com/v7.0/search")])%list.
Proof.
  intro env.
  refine (proj1 (proj2 (proj2 (environ_cell_missing_credential env)) _ _ _));
    cbn; congruence.
Defined.

(** X3: the cell fails in no other way: whenever it raises, the exception
    is the [KeyError] of a credential, and that credential is not in the
    environment. *)
Theorem environ_cell_only_fails_on_credentials : forall env e env',
  environ_cell env = (Raise e, env') ->
  exists name,
    In name credentials /\ e = KeyError name /\ environ_get name env = None.
Proof.
  intros env e env' Hraise. unfold credentials.
  destruct (environ_cell_cases env)
    as [[H0 H] | [(_ & H0 & H) | [(_ & _ & H0 & H) | (_ & _ & _ & H)]]];
    rewrite H in Hraise; try discriminate Hraise;
    injection Hraise as <- _; eexists; (split; [| split; [reflexivity | exact H0]]);
    cbn; auto.
Qed.

Lemma environ_cell_only_fails_on_credentials_example :
  exists name,
    In name credentials
    /\ KeyError "OPENAI_API_BASE" = KeyError name
    /\ environ_get name [("HOME", "/root")] = None.
Proof.
  exact (environ_cell_only_fails_on_credentials
           [("HOME", "/root")] (KeyError "OPENAI_API_BASE") [("HOME", "/root")]
           eq_refl).
Defined.

(** X4: running the cell again after it has run through changes nothing. *)
Theorem environ_cell_idempotent : forall env env',
  environ_cell env = (Return tt, env') ->
  environ_cell env' = (Return tt, env').
Proof.
  intros env env' Hrun.
  destruct (environ_cell_cases env)
    as [[_ H] | [(_ & _ & H) | [(_ & _ & _ & H) | ([b Hb] & [k Hk] & [s Hs] & H)]]];
    rewrite H in Hrun; try discriminate Hrun.
  injection Hrun as <-.
  destruct (environ_cell_cases (with_settings env))
    as [[H0 _] | [(_ & H0 & _) | [(_ & _ & H0 & _) | (_ & _ & _ & H')]]].
  - rewrite with_settings_get in H0. cbn in H0. congruence.
  - rewrite with_settings_get in H0. cbn in H0. congruence.
  - rewrite with_settings_get in H0. cbn in H0. congruence.
  - rewrite H'. f_equal. unfold with_settings at 1.
    rewrite (environ_set_get_id "OPENAI_API_VERSION");
      [| rewrite with_settings_get; reflexivity].
    rewrite (environ_set_get_id "OPENAI_API_TYPE");
      [| rewrite with_settings_get; reflexivity].
    apply environ_set_get_id. rewrite with_settings_get. reflexivity.
Qed.

Lemma environ_cell_idempotent_example :
  let env := [("OPENAI_API_BASE", "https://example.openai.azure.com/");
              ("OPENAI_API_KEY", "secret"); ("BING_SUBSCRIPTION_KEY", "bing")] in
  environ_cell (with_settings env) = (Return tt, with_settings env).
Proof.
  intro env.
  exact (environ_cell_idempotent env (with_settings env) eq_refl).
Defined.

(** ** More on the retry loops *)

Section RetryMore.

Context {W : Type}.
Variable run : string -> M W string.
Variable QUESTION : string.

Local Abbreviation loop := (retry_loop run QUESTION).
Local Abbreviation nth_run := (attempt run QUESTION).
Local Abbreviation after := (world_after run QUESTION).

Lemma world_after_one w : after 1 w = snd (run QUESTION w).
Proof. reflexivity. Qed.

(** Once [response] is bound, the loop leaves it bound. *)
Lemma retry_loop_keeps_bound : forall n text w,
  exists text', snd (fst (loop n (Some text) w)) = Some text'.
Proof.
  induction n as [|n IH]; intros text w.
  - exists text. reflexivity.
  - cbn [retry_loop].
    destruct (run QUESTION w) as [[answer | e] w1].
    + exists answer. reflexivity.
    + destruct (exn_is_Exception e).
      * apply IH.
      * exists text. reflexivity.
Qed.

(** X5: the loop never makes more runs than its budget, whichever way it
    ends, and with a budget above zero it makes at least one. *)
Theorem retry_loop_runs_within_budget : forall n r0 w,
  exists j,
    j <= n
    /\ snd (retry_loop run QUESTION n r0 w) = world_after run QUESTION j w
    /\ (0 < n -> 0 < j).
Proof.
  induction n as [|n IH]; intros r0 w.
  - exists 0. repeat split; lia.
  - cbn [retry_loop].
    destruct (run QUESTION w) as [[answer | e] w1] eqn:Hrun.
    + exists 1. rewrite world_after_one, Hrun. repeat split; lia.
    + destruct (exn_is_Exception e).
      * destruct (IH (Some (str_exn e)) w1) as [j (Hj & Hw & _)].
        exists (S j). cbn [world_after]. rewrite Hrun.
        repeat split; [lia | exact Hw | lia].
      * exists 1. rewrite world_after_one, Hrun. repeat split; lia.
Qed.

(** X6: an exception outside [Exception] ends the loop at once: no run is
    made after it, and [response] stays at the text of the failure before
    it, or as it was when there was none. *)
Theorem retry_loop_interrupted : forall j n r0 w e,
  j < n ->
  (forall i, i < j -> fails run QUESTION i w) ->
  nth_run j w = Raise e ->
  exn_is_Exception e = false ->
  fst (fst (loop n r0 w)) = Propagated e
  /\ snd (loop n r0 w) = after (S j) w
  /\ (j = 0 -> snd (fst (loop n r0 w)) = r0)
  /\ (forall e', 0 < j -> nth_run (j - 1) w = Raise e' ->
        snd (fst (loop n r0 w)) = Some (str_exn e')).
Proof.
  induction j as [|j IH]; intros n r0 w e Hlt Hfail Hlast Hout.
  - destruct n as [|n]; [lia |].
    unfold attempt in Hlast. cbn [world_after] in Hlast.
    cbn [retry_loop]. rewrite world_after_one.
    destruct (run QUESTION w) as [o w1]. cbn in Hlast. subst o.
    rewrite Hout. repeat split. intros e' H. lia.
  - destruct n as [|n]; [lia |].
    destruct (first_failure run QUESTION w (Hfail 0 ltac:(lia)))
      as [e0 [Hrun Hexc]].
    destruct (IH n (Some (str_exn e0)) (snd (run QUESTION w)) e) as (H1 & H2 & H3 & H4).
    + lia.
    + intros i Hi. apply fails_succ. apply Hfail. lia.
    + rewrite <- attempt_succ. exact Hlast.
    + exact Hout.
    + cbn [retry_loop]. rewrite Hrun, Hexc.
      split; [exact H1 |]. split; [exact H2 |]. split; [lia |].
      intros e' _ He'. destruct j as [|j].
      * unfold attempt in He'. cbn [Nat.sub world_after] in He'.
        rewrite Hrun in He'. cbn in He'. injection He' as <-.
        apply H3. reflexivity.
      * apply H4; [lia |].
        replace (S j - 1) with j by lia.
        replace (S (S j) - 1) with (S j) in He' by lia.
        rewrite attempt_succ in He'. exact He'.
Qed.

(** X7: a larger budget changes nothing for a session that did not use
    up the smaller one. *)
Theorem retry_loop_budget_monotone : forall n m r0 w,
  n <= m ->
  fst (fst (retry_loop run QUESTION n r0 w)) <> Exhausted ->
  retry_loop run QUESTION m r0 w = retry_loop run QUESTION n r0 w.
Proof.
  induction n as [|n IH]; intros m r0 w Hle Hexit.
  - cbn in Hexit. contradiction.
  - destruct m as [|m]; [lia |].
    cbn [retry_loop] in Hexit |- *.
    destruct (run QUESTION w) as [[answer | e] w1].
    + reflexivity.
    + destruct (exn_is_Exception e).
      * apply IH; [lia | exact Hexit].
      * reflexivity.
Qed.

Lemma retry_loop_response_bound : forall n r0 w,
  (forall e, fst (fst (loop (S n) r0 w)) <> Propagated e) ->
  (exists text, snd (fst (loop (S n) r0 w)) = Some text)
  /\ forall r1, loop (S n) r1 w = loop (S n) r0 w.
Proof.
  intros n r0 w Hexit. cbn [retry_loop] in Hexit |- *.
  destruct (run QUESTION w) as [[answer | e] w1].
  - split; [exists answer |]; reflexivity.
  - destruct (exn_is_Exception e).
    + split; [apply retry_loop_keeps_bound | reflexivity].
    + exfalso. apply (Hexit e). reflexivity.
Qed.

(** X8: after a loop with a budget above zero that did not let an
    exception through, [response] is bound, and to a text that owes
    nothing to what the variable held before the loop. *)
Theorem retry_loop_binds_response : forall n r0 w,
  (forall e, fst (fst (retry_loop run QUESTION (S n) r0 w)) <> Propagated e) ->
  (exists text, snd (fst (retry_loop run QUESTION (S n) r0 w)) = Some text)
  /\ forall r1,
       retry_loop run QUESTION (S n) r1 w = retry_loop run QUESTION (S n) r0 w.
Proof. exact retry_loop_response_bound. Qed.

End RetryMore.

(** A parse error, then an interrupt from the keyboard, in cell 11: the
    third run is never made, and [response] holds the parse error. *)
Lemma retry_loop_interrupted_example :
  let script :=
    [Raise (OutputParserException "Could not parse LLM output");
     Raise KeyboardInterrupt;
     Return "Kansas City won [1]."] in
  let result := retry_cell_11 scripted_run "Who won the 2023 superbowl?" None script in
  fst (fst result) = Propagated KeyboardInterrupt
  /\ snd result = [Return "Kansas City won [1]."]
  /\ snd (fst result) = Some "Could not parse LLM output".
Proof.
  intros script result.
  assert (Hfail : forall i, i < 1 ->
            fails scripted_run "Who won the 2023 superbowl?" i script).
  { intros [|i] Hi; [| lia]. eexists. split; reflexivity. }
  destruct (retry_loop_interrupted scripted_run "Who won the 2023 superbowl?"
              1 3 None script KeyboardInterrupt ltac:(lia) Hfail eq_refl eq_refl)
    as (H1 & H2 & _ & H4).
  split; [exact H1 |]. split; [exact H2 |].
  exact (H4 (OutputParserException "Could not parse LLM output")
            ltac:(lia) eq_refl).
Defined.

(** One parse error and then an answer: cell 11 ends as cell 7 does. *)
Lemma retry_loop_budget_monotone_example :
  let script :=
    [Raise (OutputParserException "Could not parse LLM output");
     Return "Kansas City won [1]."] in
  retry_cell_11 scripted_run "Who won the 2023 superbowl?" None script =
  retry_cell_7 scripted_run "Who won the 2023 superbowl?" None script.
Proof.
  intro script.
  apply (retry_loop_budget_monotone scripted_run
           "Who won the 2023 superbowl?" 2 3 None script).
  - lia.
  - cbn. discriminate.
Defined.

(** A stale answer of an earlier question in [response] is gone after
    cell 11 has failed on the new one. *)
Lemma retry_loop_binds_response_example :
  let script :=
    [Raise (OutputParserException "first"); Raise (OutputParserException "second");
     Raise (OutputParserException "third")] in
  (exists text,
      snd (fst (retry_loop scripted_run "x++ comments" 3
                  (Some "stale answer") script)) = Some text)
  /\ forall r1,
       retry_loop scripted_run "x++ comments" 3 r1 script =
       retry_loop scripted_run "x++ comments" 3 (Some "stale answer") script.
Proof.
  intro script.
  apply (retry_loop_binds_response scripted_run "x++ comments" 2
           (Some "stale answer") script).
  intros e. cbn. discriminate.
Defined.

(** ** Asking and showing *)

Section AskAndShow.

Context {W : Type}.
Variable run : string -> M W string.
Variable QUESTION : string.

(** [printmd(response)] with [response] bound does what [printmd] does. *)
Lemma show_cell_bound text (w : W) (nb : Notebook) :
  show_cell (mk_kernel w (Some text) nb) =
  match fst (new_Markdown (shown text) nb) with
  | Return obj => (Return tt, mk_kernel w (Some text) (show obj nb))
  | Raise e => (Raise e, mk_kernel w (Some text) nb)
  end.
Proof.
  unfold show_cell. cbn [var_response notebook agent_world].
  rewrite printmd_runs.
  destruct (fst (new_Markdown (shown text) nb)); reflexivity.
Qed.

Lemma show_cell_literal text (w : W) (nb : Notebook) :
  is_literal nb (shown text) = true ->
  show_cell (mk_kernel w (Some text) nb) =
  (Return tt, mk_kernel w (Some text) (show (Markdown (shown text)) nb)).
Proof.
  intro H. rewrite show_cell_bound, (new_Markdown_literal _ _ H). reflexivity.
Qed.

(** What [Markdown] makes of a text is one Markdown object, the text
    itself when it is taken for the data. *)
Lemma new_Markdown_object data nb obj :
  fst (new_Markdown data nb) = Return obj ->
  exists t,
    obj = Markdown t /\ (is_literal nb data = true -> t = data).
Proof.
  unfold new_Markdown, is_literal.
  destruct (prefix "http" data).
  - destruct (urlopen nb data) as [loaded | e]; cbn; intro H;
      [| discriminate H].
    injection H as <-. exists loaded. split; [reflexivity | discriminate].
  - destruct (path_exists nb data).
    + destruct (read_path nb data) as [loaded | e]; cbn; intro H;
        [| discriminate H].
      injection H as <-. exists loaded. split; [reflexivity | discriminate].
    + cbn. intro H. injection H as <-. exists data. split; reflexivity.
Qed.

(** X9: a retry cell of budget above zero followed by [printmd(response)]
    never fails for want of a response.  When the two run through, one
    more Markdown object is shown, and it is the response with its dollar
    signs replaced whenever [Markdown] takes that text for the data
    itself.  When they raise, nothing is shown, and either an exception
    outside [Exception] ended the loop, or [response] is bound and it is
    [Markdown] that raised, on a text it took for a URL or a path. *)
Theorem ask_and_show_outcome : forall n s,
  match ask_and_show run QUESTION (S n) s with
  | (Return _, s') =>
      exists text t,
        var_response s' = Some text
        /\ notebook s' = show (Markdown t) (notebook s)
        /\ (is_literal (notebook s) (shown text) = true ->
            t = shown text /\ PyStr.contains "$" t = false)
  | (Raise e, s') =>
      notebook s' = notebook s
      /\ (exn_is_Exception e = false
          \/ exists text,
               var_response s' = Some text
               /\ is_literal (notebook s) (shown text) = false
               /\ fst (new_Markdown (shown text) (notebook s)) = Raise e)
  end.
Proof.
  intros n s. unfold ask_and_show, bind, retry_cell.
  pose proof (retry_loop_response_bound run QUESTION n
                (var_response s) (agent_world s)) as Hbound.
  pose proof (retry_loop_catches run QUESTION (S n)
                (var_response s) (agent_world s)) as Hcatch.
  destruct (retry_loop run QUESTION (S n) (var_response s) (agent_world s))
    as [[exit r] w'].
  cbn [fst snd] in Hbound, Hcatch.
  assert (Hshow : (exists text, r = Some text) ->
    match show_cell (mk_kernel w' r (notebook s)) with
    | (Return _, s') =>
        exists text t,
          var_response s' = Some text
          /\ notebook s' = show (Markdown t) (notebook s)
          /\ (is_literal (notebook s) (shown text) = true ->
              t = shown text /\ PyStr.contains "$" t = false)
    | (Raise e, s') =>
        notebook s' = notebook s
        /\ (exn_is_Exception e = false
            \/ exists text,
                 var_response s' = Some text
                 /\ is_literal (notebook s) (shown text) = false
                 /\ fst (new_Markdown (shown text) (notebook s)) = Raise e)
    end).
  { intros [text ->]. rewrite show_cell_bound.
    destruct (fst (new_Markdown (shown text) (notebook s))) as [obj | e] eqn:E.
    - destruct (new_Markdown_object _ _ _ E) as [t [-> Ht]].
      exists text, t. split; [reflexivity |]. split; [reflexivity |].
      intro Hlit. rewrite (Ht Hlit).
      split; [reflexivity | apply shown_has_no_dollar].
    - split; [reflexivity |]. right. exists text.
      split; [reflexivity |]. split; [| exact E].
      destruct (is_literal (notebook s) (shown text)) eqn:L; [| reflexivity].
      rewrite (new_Markdown_literal _ _ L) in E. discriminate E. }
  destruct exit as [| | e]; cbv zeta.
  - apply Hshow. apply Hbound. intros e. discriminate.
  - apply Hshow. apply Hbound. intros e. discriminate.
  - split; [reflexivity |]. left. apply Hcatch. reflexivity.
Qed.

(** X10: when a run within the budget is the first to return, and
    [Markdown] takes its answer, dollar signs replaced, for the data
    itself, what is shown is that text, and no run is made after it. *)
Theorem ask_and_show_shows_answer : forall n j s answer,
  j < n ->
  (forall i, i < j -> fails run QUESTION i (agent_world s)) ->
  attempt run QUESTION j (agent_world s) = Return answer ->
  is_literal (notebook s) (shown answer) = true ->
  ask_and_show run QUESTION n s =
  (Return tt,
   mk_kernel (world_after run QUESTION (S j) (agent_world s)) (Some answer)
     (show (Markdown (shown answer)) (notebook s))).
Proof.
  intros n j s answer Hlt Hfail Hret Hlit.
  unfold ask_and_show, bind, retry_cell.
  rewrite (retry_loop_done run QUESTION j n _ _ answer Hlt Hfail Hret).
  cbv zeta. apply show_cell_literal. exact Hlit.
Qed.

(** X11: when every run of the budget fails, and [Markdown] takes the
    text of the last exception, dollar signs replaced, for the data
    itself, that text is shown in the place of an answer. *)
Theorem ask_and_show_shows_error : forall n s e,
  (forall i, i < S n -> fails run QUESTION i (agent_world s)) ->
  attempt run QUESTION n (agent_world s) = Raise e ->
  is_literal (notebook s) (shown (str_exn e)) = true ->
  ask_and_show run QUESTION (S n) s =
  (Return tt,
   mk_kernel (world_after run QUESTION (S n) (agent_world s))
     (Some (str_exn e))
     (show (Markdown (shown (str_exn e))) (notebook s))).
Proof.
  intros n s e Hfail Hlast Hlit.
  unfold ask_and_show, bind, retry_cell.
  rewrite (retry_loop_all_fail run QUESTION n _ _ e Hfail Hlast).
  cbv zeta. apply show_cell_literal. exact Hlit.
Qed.

End AskAndShow.

(** Cells 11 and 12 on a script that answers at the second run. *)
Lemma ask_and_show_shows_answer_example :
  ask_and_show scripted_run "hotel in Madrid" 3
    (mk_kernel [Raise (OutputParserException "Could not parse LLM output");
                Return "A room is $80 a night."] None fresh_notebook) =
  (Return tt,
   mk_kernel [] (Some "A room is $80 a night.")
     (show (Markdown "A room is USD 80 a night.") fresh_notebook)).
Proof.
  refine (ask_and_show_shows_answer scripted_run "hotel in Madrid" 3 1
            (mk_kernel _ None fresh_notebook) "A room is $80 a night." _ _ _ _).
  - lia.
  - intros [|i] Hi; [| lia]. eexists. split; reflexivity.
  - reflexivity.
  - reflexivity.
Defined.

(** Cells 11 and 12 on a script that never answers. *)
Lemma ask_and_show_shows_error_example :
  ask_and_show scripted_run "hotel in Madrid" 3
    (mk_kernel [Raise (OutputParserException "Could not parse: $70");
                Raise (OutputParserException "Could not parse: $80");
                Raise (OutputParserException "Could not parse: $90")]
       None fresh_notebook) =
  (Return tt,
   mk_kernel [] (Some "Could not parse: $90")
     (show (Markdown "Could not parse: USD 90") fresh_notebook)).
Proof.
  refine (ask_and_show_shows_error scripted_run "hotel in Madrid" 2
            (mk_kernel _ None fresh_notebook)
            (OutputParserException "Could not parse: $90") _ _ _).
  - intros [|[|[|i]]] Hi; [| | | lia]; eexists; split; reflexivity.
  - reflexivity.
  - reflexivity.
Defined.

(** ** More on the display helper *)

Lemma length_append_string a b :
  String.length (a ++ b) = String.length a + String.length b.
Proof.
  induction a as [|x a IH]; cbn [append String.length].
  - reflexivity.
  - rewrite IH. reflexivity.
Qed.

Lemma shown_length text :
  String.length (shown text) = String.length text + 3 * count_char "$" text.
Proof.
  induction text as [|x text IH]; cbn [shown String.length count_char].
  - reflexivity.
  - rewrite length_append_string, IH. unfold shown_char.
    destruct (ascii_dec "$" x); cbn [String.length]; lia.
Qed.

(** X12: replacing twice is replacing once: a text that went through the
    replacement of [printmd] is shown by [printmd] as it is. *)
Theorem printmd_idempotent : forall text out,
  printmd (PyStr.replace text "$" "USD ") out = printmd text out.
Proof.
  intros text nb.
  rewrite !printmd_runs, replace_dollar.
  rewrite (shown_without_dollar (shown text) (shown_has_no_dollar text)).
  reflexivity.
Qed.

(** X13: whenever the text [printmd] hands to [Markdown] is taken for the
    data itself, the text shown is longer than the text given by three
    characters for every dollar sign in it, and by nothing else. *)
Theorem printmd_length : forall text nb,
  is_literal nb (shown text) = true ->
  exists t,
    printmd text nb = (Return tt, show (Markdown t) nb)
    /\ String.length t = String.length text + 3 * count_char "$" text.
Proof.
  intros text nb H. exists (shown text).
  split; [apply printmd_shows; exact H | apply shown_length].
Qed.

Lemma printmd_length_example :
  exists t,
    printmd "$5 or $7" fresh_notebook =
      (Return tt, show (Markdown t) fresh_notebook)
    /\ String.length t = 8 + 3 * 2.
Proof.
  exact (printmd_length "$5 or $7" fresh_notebook eq_refl).
Defined.

(** X14: the replacement looks at one character at a time: when two texts
    and their join are each taken by [Markdown] for the data itself, the
    join is shown as the join of what each is shown as. *)
Theorem printmd_concatenation : forall a b nb,
  is_literal nb (shown a) = true ->
  is_literal nb (shown b) = true ->
  is_literal nb (shown (a ++ b)) = true ->
  exists ta tb,
    printmd a nb = (Return tt, show (Markdown ta) nb)
    /\ printmd b nb = (Return tt, show (Markdown tb) nb)
    /\ printmd (a ++ b) nb = (Return tt, show (Markdown (ta ++ tb)) nb).
Proof.
  intros a b nb Ha Hb Hab. exists (shown a), (shown b).
  rewrite (printmd_shows a nb Ha), (printmd_shows b nb Hb),
    (printmd_shows (a ++ b) nb Hab), shown_app.
  repeat split.
Qed.

Lemma printmd_concatenation_example :
  exists ta tb,
    printmd "It costs $5" fresh_notebook =
      (Return tt, show (Markdown ta) fresh_notebook)
    /\ printmd " or $7." fresh_notebook =
         (Return tt, show (Markdown tb) fresh_notebook)
    /\ printmd ("It costs $5" ++ " or $7.") fresh_notebook =
         (Return tt, show (Markdown (ta ++ tb)) fresh_notebook).
Proof.
  exact (printmd_concatenation "It costs $5" " or $7." fresh_notebook
           eq_refl eq_refl eq_refl).
Defined.
